(** * AutoPR: the [PlanAndCode] agent (src/autopr/agents/plan_and_code.py)

    A shallow embedding of the agent's three methods, [write_commit],
    [create_pull_request] and [handle_event], together with the agent's
    constructor.  The agent is glue between four collaborators (publish,
    action, diff and commit service) that live outside the file; they are
    type classes over an abstract [World], every method of which may
    return or raise.  A run of a method yields its outcome, the list of
    collaborator calls it made, in order and with their replies, and the
    world it leaves behind.

    Two things of Python are read as follows.  The context is a dict that
    [write_commit] updates in place and then replaces by what
    [run_actions_iteratively] returns; no caller keeps the old dict, so
    the context is passed and returned as a value.  The objects of
    [PullRequestDescription] and [CommitPlan] are values as well: the plan
    is produced once by the planning stage and not changed while the
    agent walks through its commits. *)

From Stdlib Require Import ZArith.
From stdpp Require Import base option list strings gmap.

Local Open Scope string_scope.
Local Open Scope Z_scope.
Local Open Scope list_scope.

(** ** Data model *)

(** [CommitPlan] of autopr.actions.utils.commit: the agent reads only
    [commit_message]; the plan's target files are carried along. *)
Record CommitPlan := {
  commit_message : string;
  relevant_filepaths : list string;
}.

(** [PullRequestDescription] of autopr.actions.utils.commit: the agent
    reads [title], [body] and [commits]. *)
Record PullRequestDescription := {
  title : string;
  body : string;
  commits : list CommitPlan;
}.

(** Python exceptions: the two the agent raises itself, and whatever a
    collaborator raises. *)
Inductive exn :=
| TypeError (msg : string)
| NotImplementedError (msg : string)
| ExternalError (msg : string).

Inductive outcome (A : Type) :=
| Return (a : A)
| Raise (e : exn).
Arguments Return {A} a.
Arguments Raise {A} e.

(** The configuration [__init__] stores on the agent. *)
Record PlanAndCode := {
  planning_actions : list string;
  codegen_actions : list string;
  max_codegen_iterations : Z;
}.

(** [__init__]: a keyword argument that is not passed ([None]) takes the
    default of the signature. *)
Definition PlanAndCode_init (planning_actions : option (list string))
    (codegen_actions : option (list string))
    (max_codegen_iterations : option Z) : PlanAndCode :=
  {| planning_actions :=
       default ["plan_pull_request"; "request_more_information"] planning_actions;
     codegen_actions := default ["new_file"; "edit_file"] codegen_actions;
     max_codegen_iterations := default 5 max_codegen_iterations |}.

Section Agent.

(** The payload of an issue-labeled event, and the event variants other
    than the issue-labeled one, are declared in autopr.models; the agent
    only moves them around. *)
Context {Issue OtherEvent : Type}.

Record IssueLabelEvent := { issue : Issue }.

Inductive EventUnion :=
| issue_label (e : IssueLabelEvent)
| other_event (e : OtherEvent).

(** Values a context can hold ([ContextDict] is a [dict[str, Any]]);
    [VObject class] is an object of any other class, [class] being what
    Python prints for its type. *)
#[warnings="-register-all"]
Inductive value :=
| VNone
| VStr (s : string)
| VList (l : list value)
| VIssue (i : Issue)
| VCommitPlan (c : CommitPlan)
| VPullRequestDescription (p : PullRequestDescription)
| VObject (class : string).

Abbreviation ContextDict := (gmap string value).

(** What Python prints for [type(v)] and [type(event)] in an f-string. *)
Variable type_repr : value -> string.
Variable event_type_repr : OtherEvent -> string.

(** [isinstance(v, PullRequestDescription)], with the instance at hand
    when it is one. *)
Definition as_PullRequestDescription (v : value) : option PullRequestDescription :=
  match v with
  | VPullRequestDescription p => Some p
  | _ => None
  end.

(** Truth value of what [get_diff] returns: [None] and the empty string
    are false. *)
Definition truthy (diff : option string) : bool :=
  match diff with
  | Some (String _ _) => true
  | _ => false
  end.

(** ** Collaborator calls and the log of a run *)

Inductive call :=
| Start_section (text : string)
| End_section (text : string)
| Publish_code_block (heading : string) (code : option string) (language : string)
| Set_pr_description (title body : string)
| Run_actions_iteratively (action_ids : list string) (context : ContextDict)
    (context_headings : option (gmap string string)) (max_iterations : Z)
    (include_finished : option bool)
| Get_diff
| Overwrite_new_branch
| Commit (message : string) (push : bool).

Inductive reply :=
| Returned
| Returned_context (context : ContextDict)
| Returned_diff (diff : option string)
| Raised (e : exn).

(** An entry of the log: a collaborator call with its reply, or the
    entry of [write_commit] (a marker, so that invocations of the method
    can be counted and ordered against the calls). *)
Inductive entry :=
| Enter_write_commit (commit_plan : CommitPlan)
| Call (c : call) (r : reply).

Context {World : Type}.

Record run (A : Type) := Run {
  result : outcome A;
  log : list entry;
  final : World;
}.
Arguments Run {A} result log final.
Arguments result {A} r.
Arguments log {A} r.
Arguments final {A} r.

Definition M (A : Type) : Type := World -> run A.

Definition ret {A} (a : A) : M A := fun w => Run (Return a) [] w.

Definition raise {A} (e : exn) : M A := fun w => Run (Raise e) [] w.

Definition bind {A B} (m : M A) (k : A -> M B) : M B := fun w =>
  let r := m w in
  match result r with
  | Return a => let r' := k a (final r) in Run (result r') (log r ++ log r') (final r')
  | Raise e => Run (Raise e) (log r) (final r)
  end.

Definition mark (e : entry) : M unit := fun w => Run (Return tt) [e] w.

Definition reply_of {A} (to_reply : A -> reply) (o : outcome A) : reply :=
  match o with
  | Return a => to_reply a
  | Raise e => Raised e
  end.

(** A collaborator call: the collaborator answers from the world and
    changes it; the call and its reply go to the log. *)
Definition invoke {A} (c : call) (to_reply : A -> reply)
    (f : World -> outcome A * World) : M A := fun w =>
  let '(o, w') := f w in Run o [Call c (reply_of to_reply o)] w'.

(** A run with one more entry in front of its log. *)
Definition prepend {A} (e : entry) (r : run A) : run A :=
  Run (result r) (e :: log r) (final r).

(** A property of the outcome and the log of a run. *)
Definition run_has {A} (P : outcome A -> list entry -> Prop) (r : run A)
    : Prop :=
  P (result r) (log r).

#[local] Instance M_ret : MRet M := @ret.
#[local] Instance M_bind : MBind M := fun A B k m => bind m k.

(** ** The collaborators *)

Class PublishService := {
  start_section : string -> World -> outcome unit * World;
  end_section : string -> World -> outcome unit * World;
  publish_code_block :
    string -> option string -> string -> World -> outcome unit * World;
  set_pr_description : string -> string -> World -> outcome unit * World;
}.

Class ActionService := {
  run_actions_iteratively :
    list string -> ContextDict -> option (gmap string string) -> Z ->
    option bool -> World -> outcome ContextDict * World;
}.

Class DiffService := {
  get_diff : World -> outcome (option string) * World;
}.

Class CommitService := {
  overwrite_new_branch : World -> outcome unit * World;
  commit : string -> bool -> World -> outcome unit * World;
}.

Context {publish_service : PublishService} {action_service : ActionService}
  {diff_service : DiffService} {commit_service : CommitService}.

Definition unit_reply (_ : unit) : reply := Returned.

(** The calls as the agent makes them: each is logged with its arguments
    and answered by the collaborator. *)
Definition call_start_section (text : string) : M unit :=
  invoke (Start_section text) unit_reply (start_section text).

Definition call_end_section (text : string) : M unit :=
  invoke (End_section text) unit_reply (end_section text).

Definition call_publish_code_block (heading : string) (code : option string)
    (language : string) : M unit :=
  invoke (Publish_code_block heading code language) unit_reply
    (publish_code_block heading code language).

Definition call_set_pr_description (title body : string) : M unit :=
  invoke (Set_pr_description title body) unit_reply (set_pr_description title body).

Definition call_run_actions_iteratively (action_ids : list string)
    (context : ContextDict) (context_headings : option (gmap string string))
    (max_iterations : Z) (include_finished : option bool) : M ContextDict :=
  invoke
    (Run_actions_iteratively action_ids context context_headings max_iterations
       include_finished)
    Returned_context
    (run_actions_iteratively action_ids context context_headings max_iterations
       include_finished).

Definition call_get_diff : M (option string) :=
  invoke Get_diff Returned_diff get_diff.

Definition call_overwrite_new_branch : M unit :=
  invoke Overwrite_new_branch unit_reply overwrite_new_branch.

Definition call_commit (message : string) (push : bool) : M unit :=
  invoke (Commit message push) unit_reply (commit message push).

(** [for x in xs: s = body(x, s)] *)
Fixpoint for_each {A S} (xs : list A) (s : S) (body : A -> S -> M S) : M S :=
  match xs with
  | [] => mret s
  | x :: xs' => s' ← body x s; for_each xs' s' body
  end.

(** ** The agent *)

(** Headings [write_commit] adds for the two keys it sets. *)
Definition commit_headings : gmap string string :=
  <["action_history" := "Actions that have been run so far"]>
    {["current_commit" := "Commit we are currently generating"]}.

Definition write_commit (self : PlanAndCode) (commit_plan : CommitPlan)
    (context : ContextDict) (context_headings : gmap string string)
    : M ContextDict :=
  mark (Enter_write_commit commit_plan) ;;
  call_start_section ("🔨 Writing commit " +:+ commit_message commit_plan) ;;
  (* Set the current commit in the context *)
  let context := <["current_commit" := VCommitPlan commit_plan]> context in
  (* Clear action_history in the context for each commit *)
  let context := <["action_history" := VList []]> context in
  (* Generate the changes; in the dict display the keys of
     [context_headings] win over the two given first *)
  context ←
    call_run_actions_iteratively (codegen_actions self) context
      (Some (context_headings ∪ commit_headings))
      (max_codegen_iterations self) (Some true);
  (* Show the diff in the progress report *)
  diff ← call_get_diff;
  (if truthy diff then
     call_publish_code_block "Diff" diff "diff" ;;
     call_end_section ("✅ Committed " +:+ commit_message commit_plan)
   else
     call_end_section ("⚠️ Empty commit " +:+ commit_message commit_plan)) ;;
  (* Commit and push the changes *)
  call_commit (commit_message commit_plan) true ;;
  mret context.

(** Headings [create_pull_request] passes to [write_commit]. *)
Definition plan_headings : gmap string string :=
  {["pull_request_description" := "Plan for the pull request"]}.

Definition create_pull_request (self : PlanAndCode) (event : IssueLabelEvent)
    : M unit :=
  (* Create new branch *)
  call_overwrite_new_branch ;;
  let issue := issue event in
  (* Initialize the context *)
  let context : ContextDict := {["issue" := VIssue issue]} in
  (* Generate the pull request plan *)
  context ←
    call_run_actions_iteratively (planning_actions self) context None 1 None;
  (* Get the pull request description from the context *)
  match context !! "pull_request_description" with
  | None =>
    (* Stop the agent if the action did not return a description *)
    mret tt
  | Some pr_desc =>
    match as_PullRequestDescription pr_desc with
    | None =>
      raise (TypeError ("Actions returned a pull request description of type "
                        +:+ type_repr pr_desc
                        +:+ " instead of PullRequestDescription"))
    | Some pr_desc =>
      (* Publish the description *)
      call_set_pr_description (title pr_desc) (body pr_desc) ;;
      for_each (commits pr_desc) context (fun current_commit context =>
        write_commit self current_commit context plan_headings) ;;
      mret tt
    end
  end.

Definition handle_event (self : PlanAndCode) (event : EventUnion) : M unit :=
  match event with
  | issue_label event => create_pull_request self event
  | other_event e =>
    raise (NotImplementedError
             ("Event type " +:+ event_type_repr e +:+ " not supported"))
  end.

(** ** Observations on a log *)

(** The commit plans [write_commit] was entered with, in order. *)
Definition write_commit_entries (l : list entry) : list CommitPlan :=
  omap (λ e, match e with Enter_write_commit cp => Some cp | _ => None end) l.

(** The [(message, push)] arguments of the calls of [commit], in order. *)
Definition commit_calls (l : list entry) : list (string * bool) :=
  omap (λ e, match e with Call (Commit m p) _ => Some (m, p) | _ => None end) l.

(** The [(title, body)] arguments of the calls of [set_pr_description]. *)
Definition set_pr_description_calls (l : list entry) : list (string * string) :=
  omap (λ e,
    match e with Call (Set_pr_description t b) _ => Some (t, b) | _ => None end) l.

(** The replies to the calls of [overwrite_new_branch], call by call. *)
Definition branch_calls (l : list entry) : list reply :=
  omap (λ e, match e with Call Overwrite_new_branch r => Some r | _ => None end) l.

(** The texts the sections were closed with ([end_section]): the reports
    on the commits, in order. *)
Definition reports (l : list entry) : list string :=
  omap (λ e, match e with Call (End_section t) _ => Some t | _ => None end) l.

(** The [(heading, code, language)] arguments of the published code blocks. *)
Definition code_blocks (l : list entry) : list (string * option string * string) :=
  omap (λ e,
    match e with
    | Call (Publish_code_block h c g) _ => Some (h, c, g)
    | _ => None
    end) l.

(** What [get_diff] returned, call by call. *)
Definition diff_replies (l : list entry) : list (option string) :=
  omap (λ e,
    match e with Call Get_diff (Returned_diff d) => Some d | _ => None end) l.

(** Whether a call of the publish service raised. *)
Definition publish_raised (l : list entry) : bool :=
  existsb (λ e,
    match e with
    | Call (Start_section _) (Raised _)
    | Call (End_section _) (Raised _)
    | Call (Publish_code_block _ _ _) (Raised _)
    | Call (Set_pr_description _ _) (Raised _) => true
    | _ => false
    end) l.

(** The reply to the first call of [run_actions_iteratively]; in a run of
    [create_pull_request] that is the planning stage. *)
Fixpoint planning_reply (l : list entry) : option reply :=
  match l with
  | [] => None
  | Call (Run_actions_iteratively _ _ _ _ _) r :: _ => Some r
  | _ :: l' => planning_reply l'
  end.

(** The calls of [run_actions_iteratively], each with the commit plan of
    the [write_commit] invocation it is made in ([None] outside of one). *)
Fixpoint action_runs (inside : option CommitPlan) (l : list entry)
    : list (option CommitPlan * call) :=
  match l with
  | [] => []
  | Enter_write_commit cp :: l' => action_runs (Some cp) l'
  | Call (Run_actions_iteratively _ _ _ _ _ as c) _ :: l' =>
    (inside, c) :: action_runs inside l'
  | Call _ _ :: l' => action_runs inside l'
  end.

(** The [write_commit] invocation a log ends in. *)
Fixpoint last_entry (inside : option CommitPlan) (l : list entry)
    : option CommitPlan :=
  match l with
  | [] => inside
  | Enter_write_commit cp :: l' => last_entry (Some cp) l'
  | Call _ _ :: l' => last_entry inside l'
  end.

(** A run of code generation starts from a context that names the commit
    of the [write_commit] invocation under ['current_commit'] and has the
    empty list under ['action_history']. *)
Definition round_reset (x : option CommitPlan * call) : Prop :=
  match x with
  | (Some cp, Run_actions_iteratively _ context _ _ _) =>
    context !! "current_commit" = Some (VCommitPlan cp) ∧
    context !! "action_history" = Some (VList [])
  | _ => True
  end.

(** The bounds on the iterations: one for the planning call (the call
    outside of [write_commit]), the configured number and
    [include_finished=True] for code generation. *)
Definition iterations_bounded (self : PlanAndCode)
    (x : option CommitPlan * call) : Prop :=
  match x with
  | (None, Run_actions_iteratively ids _ _ m _) =>
    ids = planning_actions self ∧ m = 1
  | (Some _, Run_actions_iteratively ids _ _ m f) =>
    ids = codegen_actions self ∧ m = max_codegen_iterations self ∧
    f = Some true
  | _ => True
  end.

(** ** The runs of the agent, case by case *)

Section Runs.

Variable self : PlanAndCode.

Section WriteCommit.

Variables (commit_plan : CommitPlan) (context : ContextDict)
  (context_headings : gmap string string).

(** The context [write_commit] hands to code generation. *)
Definition codegen_context : ContextDict :=
  <["action_history" := VList []]>
    (<["current_commit" := VCommitPlan commit_plan]> context).

Definition ev_section (r : reply) : entry :=
  Call (Start_section ("🔨 Writing commit " +:+ commit_message commit_plan)) r.

(** The call of [run_actions_iteratively] for code generation. *)
Definition codegen_call : call :=
  Run_actions_iteratively (codegen_actions self) codegen_context
    (Some (context_headings ∪ commit_headings))
    (max_codegen_iterations self) (Some true).

Definition ev_codegen (r : reply) : entry := Call codegen_call r.

Definition ev_block (d : option string) (r : reply) : entry :=
  Call (Publish_code_block "Diff" d "diff") r.

Definition ev_success (r : reply) : entry :=
  Call (End_section ("✅ Committed " +:+ commit_message commit_plan)) r.

Definition ev_warning (r : reply) : entry :=
  Call (End_section ("⚠️ Empty commit " +:+ commit_message commit_plan)) r.

Definition ev_commit (r : reply) : entry :=
  Call (Commit (commit_message commit_plan) true) r.

(** The log up to and including the reply of [get_diff]. *)
Definition codegen_log (c : ContextDict) (d : option string) : list entry :=
  [Enter_write_commit commit_plan; ev_section Returned;
   ev_codegen (Returned_context c); Call Get_diff (Returned_diff d)].

(** The log of the report on the diff, when the publish service returns. *)
Definition report_log (d : option string) : list entry :=
  if truthy d then [ev_block d Returned; ev_success Returned]
  else [ev_warning Returned].

Inductive write_commit_run : outcome ContextDict → list entry → Prop :=
| wc_section_raises e :
    write_commit_run (Raise e)
      [Enter_write_commit commit_plan; ev_section (Raised e)]
| wc_codegen_raises e :
    write_commit_run (Raise e)
      [Enter_write_commit commit_plan; ev_section Returned;
       ev_codegen (Raised e)]
| wc_diff_raises c e :
    write_commit_run (Raise e)
      [Enter_write_commit commit_plan; ev_section Returned;
       ev_codegen (Returned_context c); Call Get_diff (Raised e)]
| wc_block_raises c d e :
    truthy d = true →
    write_commit_run (Raise e) (codegen_log c d ++ [ev_block d (Raised e)])
| wc_success_raises c d e :
    truthy d = true →
    write_commit_run (Raise e)
      (codegen_log c d ++ [ev_block d Returned; ev_success (Raised e)])
| wc_warning_raises c d e :
    truthy d = false →
    write_commit_run (Raise e) (codegen_log c d ++ [ev_warning (Raised e)])
| wc_commit_raises c d e :
    write_commit_run (Raise e)
      (codegen_log c d ++ report_log d ++ [ev_commit (Raised e)])
| wc_returns c d :
    write_commit_run (Return c)
      (codegen_log c d ++ report_log d ++ [ev_commit Returned]).

End WriteCommit.

(** The loop of [create_pull_request] over the commits of the plan. *)
Inductive commits_run : list CommitPlan → ContextDict →
    outcome ContextDict → list entry → Prop :=
| cr_done context : commits_run [] context (Return context) []
| cr_raises cp cps context e l :
    write_commit_run cp context plan_headings (Raise e) l →
    commits_run (cp :: cps) context (Raise e) l
| cr_next cp cps context c l o l' :
    write_commit_run cp context plan_headings (Return c) l →
    commits_run cps c o l' →
    commits_run (cp :: cps) context o (l ++ l').

Section CreatePullRequest.

Variable event : IssueLabelEvent.

Definition ev_branch (r : reply) : entry := Call Overwrite_new_branch r.

Definition ev_planning (r : reply) : entry :=
  Call (Run_actions_iteratively (planning_actions self)
          {["issue" := VIssue (issue event)]} None 1 None) r.

Definition ev_description (p : PullRequestDescription) (r : reply) : entry :=
  Call (Set_pr_description (title p) (body p)) r.

Definition planning_log (c : ContextDict) : list entry :=
  [ev_branch Returned; ev_planning (Returned_context c)].

Definition wrong_type (v : value) : exn :=
  TypeError ("Actions returned a pull request description of type "
             +:+ type_repr v +:+ " instead of PullRequestDescription").

Inductive create_pull_request_run : outcome unit → list entry → Prop :=
| cpr_branch_raises e :
    create_pull_request_run (Raise e) [ev_branch (Raised e)]
| cpr_planning_raises e :
    create_pull_request_run (Raise e)
      [ev_branch Returned; ev_planning (Raised e)]
| cpr_no_description c :
    c !! "pull_request_description" = None →
    create_pull_request_run (Return tt) (planning_log c)
| cpr_wrong_type c v :
    c !! "pull_request_description" = Some v →
    as_PullRequestDescription v = None →
    create_pull_request_run (Raise (wrong_type v)) (planning_log c)
| cpr_description_raises c p e :
    c !! "pull_request_description" = Some (VPullRequestDescription p) →
    create_pull_request_run (Raise e)
      (planning_log c ++ [ev_description p (Raised e)])
| cpr_commits_raise c p e l :
    c !! "pull_request_description" = Some (VPullRequestDescription p) →
    commits_run (commits p) c (Raise e) l →
    create_pull_request_run (Raise e)
      (planning_log c ++ ev_description p Returned :: l)
| cpr_returns c p c' l :
    c !! "pull_request_description" = Some (VPullRequestDescription p) →
    commits_run (commits p) c (Return c') l →
    create_pull_request_run (Return tt)
      (planning_log c ++ ev_description p Returned :: l).

End CreatePullRequest.

End Runs.

End Agent.

Arguments Run {Issue World A} result log final.
Arguments result {Issue World A} r.
Arguments log {Issue World A} r.
Arguments final {Issue World A} r.

(** ** A scripted world

    A concrete world to run the agent in: the planning stage puts
    [planned] (if any) under ['pull_request_description'], code generation
    leaves the context as it is, [get_diff] answers from the list [diffs],
    and no collaborator raises. *)

Record Script := {
  planned : option (@value nat);
  diffs : list (option string);
}.

#[local] Instance scripted_publish : @PublishService Script := {|
  start_section _ w := (Return tt, w);
  end_section _ w := (Return tt, w);
  publish_code_block _ _ _ w := (Return tt, w);
  set_pr_description _ _ w := (Return tt, w);
|}.

#[local] Instance scripted_action : @ActionService nat Script := {|
  run_actions_iteratively _ context _ _ include_finished w :=
    match include_finished, planned w with
    | None, Some v => (Return (<["pull_request_description" := v]> context), w)
    | _, _ => (Return context, w)
    end;
|}.

#[local] Instance scripted_diff : @DiffService Script := {|
  get_diff w :=
    (Return (mjoin (head (diffs w))),
     {| planned := planned w; diffs := tail (diffs w) |});
|}.

#[local] Instance scripted_commit : @CommitService Script := {|
  overwrite_new_branch w := (Return tt, w);
  commit _ _ w := (Return tt, w);
|}.

Definition scripted_type_repr (v : @value nat) : string :=
  match v with
  | VNone => "<class 'NoneType'>"
  | VStr _ => "<class 'str'>"
  | VList _ => "<class 'list'>"
  | VIssue _ => "<class 'autopr.models.artifacts.Issue'>"
  | VCommitPlan _ => "<class 'autopr.actions.utils.commit.CommitPlan'>"
  | VPullRequestDescription _ =>
    "<class 'autopr.actions.utils.commit.PullRequestDescription'>"
  | VObject class => class
  end.

Definition add_foo : CommitPlan :=
  {| commit_message := "Add foo.py"; relevant_filepaths := ["foo.py"] |}.

Definition fix_bar : CommitPlan :=
  {| commit_message := "Fix bar.py"; relevant_filepaths := ["bar.py"] |}.

Definition foo_bar_plan : PullRequestDescription :=
  {| title := "Add foo"; body := "Adds foo.py and fixes bar.py.";
     commits := [add_foo; fix_bar] |}.

Definition default_agent : PlanAndCode := PlanAndCode_init None None None.

Definition issue_7 : @IssueLabelEvent nat := {| issue := 7%nat |}.

(** The world of the two-commit scenario: the first diff is not empty,
    the second is. *)
Definition foo_bar_world : Script :=
  {| planned := Some (VPullRequestDescription foo_bar_plan);
     diffs := [Some "+print('foo')"; Some ""] |}.

(** A world in which planning asks for more information instead. *)
Definition no_plan_world : Script := {| planned := None; diffs := [] |}.

(** A world in which planning leaves a string where the description
    should be. *)
Definition wrong_plan_world : Script :=
  {| planned := Some (VStr "later"); diffs := [] |}.

(** A world in which code generation leaves no diff. *)
Definition empty_diff_world : Script := {| planned := None; diffs := [None] |}.

(** The runs of the agent in these worlds. *)
Definition foo_bar_run : @run nat Script unit :=
  create_pull_request scripted_type_repr default_agent issue_7 foo_bar_world.

Definition no_plan_run : @run nat Script unit :=
  create_pull_request scripted_type_repr default_agent issue_7 no_plan_world.

Definition wrong_plan_run : @run nat Script unit :=
  create_pull_request scripted_type_repr default_agent issue_7 wrong_plan_world.

Definition issue_context : gmap string (@value nat) :=
  {["issue" := VIssue 7%nat]}.

Definition add_foo_run : @run nat Script (gmap string (@value nat)) :=
  write_commit default_agent add_foo issue_context plan_headings foo_bar_world.

Definition fix_bar_run : @run nat Script (gmap string (@value nat)) :=
  write_commit default_agent fix_bar issue_context plan_headings
    empty_diff_world.




(** ** Further observations on a log *)

Section Observations.

Context {Issue : Type}.

(** The texts the sections were opened with ([start_section]), in order. *)
Definition section_starts (l : list (@entry Issue)) : list string :=
  omap (λ e, match e with Call (Start_section t) _ => Some t | _ => None end) l.

(** The calls of [run_actions_iteratively]: the context each was given and
    the reply it got, in order. *)
Definition action_exchanges (l : list (@entry Issue))
    : list (gmap string (@value Issue) * @reply Issue) :=
  omap (λ e,
    match e with
    | Call (Run_actions_iteratively _ context _ _ _) r => Some (context, r)
    | _ => None
    end) l.

(** The headings the calls of [run_actions_iteratively] were given. *)
Definition action_headings (l : list (@entry Issue))
    : list (option (gmap string string)) :=
  omap (λ e,
    match e with
    | Call (Run_actions_iteratively _ _ h _ _) _ => Some h
    | _ => None
    end) l.

(** The text [write_commit] opens the section of a commit with. *)
Definition section_text (cp : CommitPlan) : string :=
  "🔨 Writing commit " +:+ commit_message cp.

(** The report [write_commit] closes the section with, given the diff. *)
Definition report_text (cp : CommitPlan) (d : option string) : string :=
  if truthy d then "✅ Committed " +:+ commit_message cp
  else "⚠️ Empty commit " +:+ commit_message cp.

(** The arguments of the call of [commit] for a commit of the plan. *)
Definition pushed (cp : CommitPlan) : string * bool :=
  (commit_message cp, true).

(** The context is threaded through the rounds of code generation: the
    round for the first commit starts from [c] with the two reserved keys
    set, the next round from what that round's code generation returned,
    and nothing follows a round whose code generation raised. *)
Fixpoint threaded (c : gmap string (@value Issue)) (cps : list CommitPlan)
    (xs : list (gmap string (@value Issue) * @reply Issue)) {struct xs}
    : Prop :=
  match xs with
  | [] => True
  | (given, r) :: xs' =>
    match cps with
    | [] => False
    | cp :: cps' =>
      given = codegen_context cp c ∧
      match r with
      | Returned_context c' => threaded c' cps' xs'
      | _ => xs' = []
      end
    end
  end.

End Observations.

(** ** A world that fails

    The scripted world with a countdown: the collaborators answer as in
    the script for [countdown] calls, and the call after these raises. *)

Record Faulty := {
  countdown : nat;
  script : Script;
}.

Definition faulty {A} (f : Script → outcome A * Script) (w : Faulty)
    : outcome A * Faulty :=
  match countdown w with
  | O => (Raise (ExternalError "service down"), w)
  | S n => let '(o, s) := f (script w) in (o, {| countdown := n; script := s |})
  end.

#[local] Instance faulty_publish : @PublishService Faulty := {|
  start_section t := faulty (start_section t);
  end_section t := faulty (end_section t);
  publish_code_block h c g := faulty (publish_code_block h c g);
  set_pr_description t b := faulty (set_pr_description t b);
|}.

#[local] Instance faulty_action : @ActionService nat Faulty := {|
  run_actions_iteratively ids context h m f :=
    faulty (run_actions_iteratively ids context h m f);
|}.

#[local] Instance faulty_diff : @DiffService Faulty := {|
  get_diff := faulty get_diff;
|}.

#[local] Instance faulty_commit : @CommitService Faulty := {|
  overwrite_new_branch := faulty overwrite_new_branch;
  commit m p := faulty (commit m p);
|}.

(** The two-commit scenario in which the call after [n] calls raises. *)
Definition failing_run (n : nat) : @run nat Faulty unit :=
  create_pull_request scripted_type_repr default_agent issue_7
    {| countdown := n; script := foo_bar_world |}.

(** [write_commit] on the first commit, the call after [n] calls raising. *)
Definition failing_commit_run (n : nat)
    : @run nat Faulty (gmap string (@value nat)) :=
  write_commit default_agent add_foo issue_context plan_headings
    {| countdown := n; script := foo_bar_world |}.

(** A description without commits, and the run on it. *)
Definition empty_plan : PullRequestDescription :=
  {| title := "Nothing to do"; body := "No commit is needed."; commits := [] |}.

Definition empty_plan_run : @run nat Script unit :=
  create_pull_request scripted_type_repr default_agent issue_7
    {| planned := Some (VPullRequestDescription empty_plan); diffs := [] |}.

(** ** A world that keeps the repository

    The scripted world together with what the commit service has done:
    whether the fresh branch exists, and the messages committed and
    pushed on it, oldest first.  [overwrite_new_branch] starts the branch
    anew. *)

Record Repo := {
  branch_created : bool;
  pushed_messages : list string;
  session : Script;
}.

Definition in_session {A} (f : Script → outcome A * Script) (w : Repo)
    : outcome A * Repo :=
  let '(o, s) := f (session w) in
  (o, {| branch_created := branch_created w;
         pushed_messages := pushed_messages w;
         session := s |}).

#[local] Instance repo_publish : @PublishService Repo := {|
  start_section t := in_session (start_section t);
  end_section t := in_session (end_section t);
  publish_code_block h c g := in_session (publish_code_block h c g);
  set_pr_description t b := in_session (set_pr_description t b);
|}.

#[local] Instance repo_action : @ActionService nat Repo := {|
  run_actions_iteratively ids context h m f :=
    in_session (run_actions_iteratively ids context h m f);
|}.

#[local] Instance repo_diff : @DiffService Repo := {|
  get_diff := in_session get_diff;
|}.

#[local] Instance repo_commit : @CommitService Repo := {|
  overwrite_new_branch w :=
    (Return tt,
     {| branch_created := true; pushed_messages := [];
        session := session w |});
  commit m p w :=
    (Return tt,
     {| branch_created := branch_created w;
        pushed_messages :=
          if p then pushed_messages w ++ [m] else pushed_messages w;
        session := session w |});
|}.

(** A repository without the branch, in a session of the scripted world. *)
Definition no_branch (s : Script) : Repo :=
  {| branch_created := false; pushed_messages := []; session := s |}.

(** A repository with the fresh branch. *)
Definition fresh_branch (s : Script) : Repo :=
  {| branch_created := true; pushed_messages := []; session := s |}.

(** [write_commit] on the second commit, with an empty diff, on the fresh
    branch. *)
Definition repo_fix_bar_run : @run nat Repo (gmap string (@value nat)) :=
  write_commit default_agent fix_bar issue_context plan_headings
    (fresh_branch empty_diff_world).

(** [create_pull_request] in the repository, in a session of the scripted
    world. *)
Definition repo_run (s : Script) : @run nat Repo unit :=
  create_pull_request scripted_type_repr default_agent issue_7 (no_branch s).

(** The context the planning stage of the two-commit scenario returns. *)
Definition foo_bar_context : gmap string (@value nat) :=
  <["pull_request_description" := VPullRequestDescription foo_bar_plan]>
    issue_context.

(** An agent configured with three iterations of code generation. *)
Definition three_agent : PlanAndCode := PlanAndCode_init None None (Some 3).

(** ** Replaying a log

    The log is a record of what was really asked and answered: asking the
    collaborators again, call by call from the world the run started in,
    gives the replies of the log, and leaves the world the run ended in.
    [answer] is what a collaborator replies to a call, read off the
    service classes; [replays l w w'] replays the log [l] from [w] to
    [w']. *)

Section Replay.

Context {Issue World : Type}.
Context {publish_service : @PublishService World}
  {action_service : @ActionService Issue World}
  {diff_service : @DiffService World}
  {commit_service : @CommitService World}.

Definition replied {A} (to_reply : A → @reply Issue)
    (x : outcome A * World) : @reply Issue * World :=
  (reply_of to_reply x.1, x.2).

Definition answer (q : @call Issue) (w : World) : @reply Issue * World :=
  match q with
  | Start_section t => replied unit_reply (start_section t w)
  | End_section t => replied unit_reply (end_section t w)
  | Publish_code_block h c g =>
    replied unit_reply (publish_code_block h c g w)
  | Set_pr_description t b => replied unit_reply (set_pr_description t b w)
  | Run_actions_iteratively ids c h m f =>
    replied Returned_context (run_actions_iteratively ids c h m f w)
  | Get_diff => replied Returned_diff (get_diff w)
  | Overwrite_new_branch => replied unit_reply (overwrite_new_branch w)
  | Commit m p => replied unit_reply (commit m p w)
  end.

Fixpoint replays (l : list (@entry Issue)) (w w' : World) : Prop :=
  match l with
  | [] => w' = w
  | Enter_write_commit _ :: l' => replays l' w w'
  | Call q r :: l' => (answer q w).1 = r ∧ replays l' (answer q w).2 w'
  end.

(** A computation whose every run replays. *)
Definition faithful {A} (m : @M Issue World A) : Prop :=
  ∀ w, replays (log (m w)) w (final (m w)).

End Replay.

(** ** Every run is one of the cases *)

Section Facts.

Context {Issue OtherEvent World : Type}.
Context (type_repr : @value Issue → string)
  (event_type_repr : OtherEvent → string).
Context {publish_service : @PublishService World}
  {action_service : @ActionService Issue World}
  {diff_service : @DiffService World}
  {commit_service : @CommitService World}.

Implicit Types (self : PlanAndCode) (cp : CommitPlan) (cps : list CommitPlan)
  (context c : gmap string (@value Issue)) (headings : gmap string string)
  (event : @IssueLabelEvent Issue) (w : World) (l : list (@entry Issue))
  (p : PullRequestDescription) (d : option string).

#[local] Existing Instance M_bind.
#[local] Existing Instance M_ret.

Ltac unfold_calls :=
  unfold call_start_section, call_end_section, call_publish_code_block,
    call_set_pr_description, call_run_actions_iteratively, call_get_diff,
    call_overwrite_new_branch, call_commit, invoke, mark, raise.

(** Case analysis on the answer of the collaborator method [f]. *)
Ltac answer f :=
  match goal with
  | |- context [f ?w] =>
    let o := fresh "o" in
    let w' := fresh "w" in
    destruct (f w) as [[o|o] w']; cbn
  end.

Ltac answer_actions :=
  match goal with
  | |- context [run_actions_iteratively ?a ?c ?h ?m ?f ?w] =>
    let c' := fresh "c'" in
    let e := fresh "e" in
    let w' := fresh "w" in
    destruct (run_actions_iteratively a c h m f w) as [[c'|e] w']; cbn
  end.

(** The monad, step by step: what a run that starts with a marker or
    with a collaborator call looks like. *)
Lemma bind_mark {B} (e : @entry Issue) (k : unit → @M Issue World B) w :
  (mark e ≫= k) w = prepend e (k tt w).
Proof. done. Qed.

Lemma bind_invoke {A B} (c0 : @call Issue) (to_reply : A → @reply Issue)
    (f : World → outcome A * World) (k : A → @M Issue World B) w :
  (invoke c0 to_reply f ≫= k) w
  = match f w with
    | (Return a, w1) => prepend (Call c0 (to_reply a)) (k a w1)
    | (Raise e, w1) => Run (Raise e) [Call c0 (Raised e)] w1
    end.
Proof.
  unfold mbind, M_bind, bind, invoke. by destruct (f w) as [[a|e] w1].
Qed.

Lemma bind_assoc {A B C} (m : @M Issue World A) (k : A → @M Issue World B)
    (k' : B → @M Issue World C) w :
  ((m ≫= k) ≫= k') w = (m ≫= (λ a, k a ≫= k')) w.
Proof.
  unfold mbind, M_bind, bind.
  destruct (result (m w)); cbn; [|done].
  destruct (result (k a (final (m w)))); cbn; [|done].
  by rewrite app_assoc.
Qed.

Lemma write_commit_runs self cp context headings w :
  write_commit_run self cp context headings
    (result (write_commit self cp context headings w))
    (log (write_commit self cp context headings w)).
Proof.
  change (run_has (write_commit_run self cp context headings)
            (write_commit self cp context headings w)).
  unfold write_commit, call_start_section, call_run_actions_iteratively,
    call_get_diff, call_commit.
  rewrite bind_mark, bind_invoke.
  destruct (start_section _ w) as [[[]|e] w1]; [|constructor].
  cbv zeta. rewrite bind_invoke.
  destruct (run_actions_iteratively _ _ _ _ _ w1) as [[c|e] w2]; [|constructor].
  rewrite bind_invoke.
  destruct (get_diff w2) as [[d|e] w3]; [|constructor].
  pose proof (wc_returns self cp context headings c d) as Hret.
  pose proof (wc_commit_raises self cp context headings c d) as Hraise.
  unfold report_log in Hret, Hraise.
  destruct (truthy d) eqn:Hd.
  - unfold call_publish_code_block, call_end_section.
    rewrite bind_assoc, bind_invoke.
    destruct (publish_code_block _ _ _ w3) as [[[]|e] w4];
      [|by apply (wc_block_raises _ _ _ _ c)].
    rewrite bind_invoke.
    destruct (end_section _ w4) as [[[]|e] w5];
      [|by apply (wc_success_raises _ _ _ _ c)].
    rewrite bind_invoke.
    destruct (commit _ _ w5) as [[[]|e] w6]; [exact Hret|apply Hraise].
  - unfold call_end_section. rewrite bind_invoke.
    destruct (end_section _ w3) as [[[]|e] w4];
      [|by apply (wc_warning_raises _ _ _ _ c)].
    rewrite bind_invoke.
    destruct (commit _ _ w4) as [[[]|e] w5]; [exact Hret|apply Hraise].
Qed.

Lemma commits_runs self cps : ∀ context w,
  commits_run self cps context
    (result (for_each cps context (λ current_commit context,
               write_commit self current_commit context plan_headings) w))
    (log (for_each cps context (λ current_commit context,
            write_commit self current_commit context plan_headings) w)).
Proof.
  induction cps as [|cp cps IH]; intros context w; cbn.
  - constructor.
  - unfold mbind, M_bind, bind.
    pose proof (write_commit_runs self cp context plan_headings w) as Hcp.
    destruct (result (write_commit self cp context plan_headings w))
      as [c|e] eqn:Hres; cbn.
    + eapply cr_next; [exact Hcp|apply IH].
    + by constructor.
Qed.

Lemma create_pull_request_runs self event w :
  create_pull_request_run type_repr self event
    (result (create_pull_request type_repr self event w))
    (log (create_pull_request type_repr self event w)).
Proof.
  unfold create_pull_request, mbind, M_bind, bind, mret, M_ret, ret.
  unfold_calls. cbn.
  answer overwrite_new_branch; [|constructor].
  answer_actions; [|constructor].
  destruct (c' !! "pull_request_description") as [v|] eqn:Hv; cbn;
    [|by apply cpr_no_description].
  destruct (as_PullRequestDescription v) as [p|] eqn:Hp; cbn;
    [|by apply cpr_wrong_type].
  destruct v; try discriminate. injection Hp as ->.
  answer (set_pr_description (title p) (body p));
    [|by apply (cpr_description_raises _ _ _ c')].
  pose proof (commits_runs self (commits p) c' w2) as Hl.
  match type of Hl with
  | commits_run _ _ _ (result ?r) _ => destruct (result r) as [c''|e] eqn:Hres
  end; cbn; rewrite ?app_nil_r.
  - by apply (cpr_returns _ _ _ c' p c'').
  - by apply (cpr_commits_raise _ _ _ c' p).
Qed.

(** ** What the observations see of a run *)

Ltac unfold_log :=
  unfold planning_log, codegen_log, report_log, ev_branch, ev_planning,
    ev_description, ev_section, ev_codegen, codegen_call, ev_block,
    ev_success, ev_warning, ev_commit in *.

(** Case analysis on a run of [write_commit], with the logs spelled out. *)
Ltac write_commit_cases H :=
  destruct H; unfold_log;
  repeat match goal with
         | |- context [if truthy ?d then _ else _] => destruct (truthy d) eqn:?
         | H' : context [if truthy ?d then _ else _] |- _ =>
           destruct (truthy d) eqn:?
         end;
  cbn in *.

Lemma action_runs_app l1 : ∀ inside l2,
  action_runs inside (l1 ++ l2)
  = action_runs inside l1 ++ action_runs (last_entry inside l1) l2.
Proof.
  induction l1 as [|[cp|[] r] l1 IH]; intros inside l2; cbn; try done.
  by rewrite IH.
Qed.

Section WriteCommitLog.

Variables (self : PlanAndCode) (cp : CommitPlan)
  (context : gmap string (@value Issue)) (headings : gmap string string)
  (o : outcome (gmap string (@value Issue))) (l : list (@entry Issue)).
Hypothesis Hrun : write_commit_run self cp context headings o l.

Lemma write_commit_entered : write_commit_entries l = [cp].
Proof. by write_commit_cases Hrun. Qed.


Lemma write_commit_no_branch : branch_calls l = [].
Proof. by write_commit_cases Hrun. Qed.

Lemma write_commit_last_entry inside : last_entry inside l = Some cp.
Proof. by write_commit_cases Hrun. Qed.

End WriteCommitLog.


Lemma commits_no_branch self cps context o l :
  commits_run self cps context o l → branch_calls l = [].
Proof.
  unfold branch_calls.
  induction 1 as [|????? Hcp|??????? Hcp _ IH]; [done|..].
  - by apply write_commit_no_branch in Hcp.
  - rewrite omap_app, IH.
    apply write_commit_no_branch in Hcp.
    unfold branch_calls in Hcp. by rewrite Hcp.
Qed.

Lemma codegen_context_reset cp context :
  codegen_context cp context !! "current_commit" = Some (VCommitPlan cp) ∧
  codegen_context cp context !! "action_history" = Some (VList []).
Proof. unfold codegen_context. by simplify_map_eq. Qed.

Lemma write_commit_action_runs self cp context headings o l inside :
  write_commit_run self cp context headings o l →
  action_runs inside l = [] ∨
  action_runs inside l = [(Some cp, codegen_call self cp context headings)].
Proof. intros Hrun. write_commit_cases Hrun; auto. Qed.

Lemma write_commit_action_run self cp context headings c l inside :
  write_commit_run self cp context headings (Return c) l →
  action_runs inside l = [(Some cp, codegen_call self cp context headings)].
Proof.
  intros Hrun. inversion Hrun; subst. unfold_log.
  by destruct (truthy d).
Qed.

(** The runs of code generation in the loop over the commits: all of them
    are calls of [write_commit], and when the loop returns there is one
    for each commit of the plan, in the order of the plan. *)
Lemma commits_action_runs (P : option CommitPlan * call → Prop) self :
  (∀ cp context, P (Some cp, codegen_call self cp context plan_headings)) →
  ∀ cps context o l, commits_run self cps context o l →
  ∀ inside, Forall P (action_runs inside l).
Proof.
  intros HP cps context o l.
  induction 1 as [|????? Hcp|??????? Hcp _ IH]; intros inside; [constructor|..].
  - destruct (write_commit_action_runs _ _ _ _ _ _ inside Hcp) as [->| ->];
      repeat constructor; apply HP.
  - rewrite action_runs_app. apply Forall_app. split; [|apply IH].
    destruct (write_commit_action_runs _ _ _ _ _ _ inside Hcp) as [->| ->];
      repeat constructor; apply HP.
Qed.

(** Also in a loop that is cut short by an exception the invocations of
    [write_commit] follow the plan. *)
Lemma commits_entered_in_order self cps context o l :
  commits_run self cps context o l → write_commit_entries l `prefix_of` cps.
Proof.
  unfold write_commit_entries.
  induction 1 as [|????? Hcp|??????? Hcp _ IH].
  - done.
  - apply write_commit_entered in Hcp.
    unfold write_commit_entries in Hcp. rewrite Hcp.
    by apply prefix_cons, prefix_nil.
  - apply write_commit_entered in Hcp.
    unfold write_commit_entries in Hcp. rewrite omap_app, Hcp.
    by apply prefix_cons.
Qed.

Lemma commits_all_entered self cps context c l :
  commits_run self cps context (Return c) l →
  write_commit_entries l = cps ∧
  ∀ inside, omap fst (action_runs inside l) = cps.
Proof.
  remember (Return c) as o eqn:Ho. intros Hrun. revert c Ho.
  induction Hrun as [|????? Hcp|??????? Hcp _ IH]; intros c1 Ho; [done|done|].
  destruct (IH _ Ho) as [IH1 IH2]. split.
  - unfold write_commit_entries in *. rewrite omap_app, IH1.
    apply write_commit_entered in Hcp.
    unfold write_commit_entries in Hcp. by rewrite Hcp.
  - intros inside. rewrite action_runs_app, omap_app, IH2.
    by rewrite (write_commit_action_run _ _ _ _ _ _ _ Hcp).
Qed.

(** ** Every run replays *)

Lemma replays_app (l1 l2 : list (@entry Issue)) : ∀ w w1 w2,
  replays l1 w w1 → replays l2 w1 w2 → replays (l1 ++ l2) w w2.
Proof.
  induction l1 as [|[cp|q r] l1 IH]; intros w w1 w2; cbn.
  - by intros ->.
  - apply IH.
  - intros [Hr H1] H2. split; [done|]. by eapply IH.
Qed.

Lemma replays_app_inv (l1 l2 : list (@entry Issue)) : ∀ w w2,
  replays (l1 ++ l2) w w2 → ∃ w1, replays l1 w w1 ∧ replays l2 w1 w2.
Proof.
  induction l1 as [|[cp|q r] l1 IH]; intros w w2; cbn.
  - by exists w.
  - apply IH.
  - intros [Hr H]. destruct (IH _ _ H) as (w1 & H1 & H2). by exists w1.
Qed.

Lemma faithful_ret {A} (a : A) : faithful (mret a : @M Issue World A).
Proof. by intros w. Qed.

Lemma faithful_raise {A} e : faithful (raise e : @M Issue World A).
Proof. by intros w. Qed.

Lemma faithful_mark (e : CommitPlan) :
  faithful (mark (Enter_write_commit e) : @M Issue World unit).
Proof. by intros w. Qed.

Lemma faithful_invoke {A} (q : @call Issue) (to_reply : A → @reply Issue)
    (f : World → outcome A * World) :
  (∀ w, answer q w = replied to_reply (f w)) →
  faithful (invoke q to_reply f).
Proof.
  intros Hq w. unfold invoke.
  specialize (Hq w). destruct (f w) as [o w1]. cbn. by rewrite Hq.
Qed.

Lemma faithful_bind {A B} (m : @M Issue World A) (k : A → @M Issue World B) :
  faithful m → (∀ a, faithful (k a)) → faithful (m ≫= k).
Proof.
  intros Hm Hk w. unfold mbind, M_bind, bind.
  destruct (result (m w)) as [a|e]; cbn; [|apply Hm].
  eapply replays_app; [apply Hm|apply Hk].
Qed.

(** The steps of a proof that a method of the agent is faithful. *)
Ltac faithful_step :=
  first
    [ apply faithful_bind; [|intros ?]
    | apply faithful_invoke; intros ?; reflexivity
    | apply faithful_mark
    | apply faithful_ret
    | apply faithful_raise ].

Lemma write_commit_faithful self cp context headings :
  faithful (write_commit self cp context headings).
Proof.
  unfold write_commit, call_start_section, call_run_actions_iteratively,
    call_get_diff, call_publish_code_block, call_end_section, call_commit.
  cbv zeta. repeat faithful_step.
  match goal with |- context [truthy ?d] => destruct (truthy d) end;
    repeat faithful_step.
Qed.

Lemma for_each_faithful {A S} (body : A → S → @M Issue World S) xs :
  (∀ x s, faithful (body x s)) → ∀ s, faithful (for_each xs s body).
Proof.
  intros Hbody. induction xs as [|x xs IH]; intros s; cbn.
  - apply faithful_ret.
  - apply faithful_bind; [apply Hbody|apply IH].
Qed.

Lemma create_pull_request_faithful self event :
  faithful (create_pull_request type_repr self event).
Proof.
  unfold create_pull_request, call_overwrite_new_branch,
    call_run_actions_iteratively, call_set_pr_description.
  cbv zeta. repeat faithful_step.
  match goal with
  | |- context [?c !! "pull_request_description"] =>
    destruct (c !! "pull_request_description") as [v|]
  end; [|faithful_step].
  destruct (as_PullRequestDescription v) as [p|]; [|faithful_step].
  repeat faithful_step.
  apply for_each_faithful. intros cp c. apply write_commit_faithful.
Qed.

(** Case analysis on a run of [create_pull_request] given as an equation. *)
Ltac create_pull_request_cases Hrun :=
  match type of Hrun with
  | create_pull_request ?t ?self ?event ?w = _ =>
    let H := fresh "Hcase" in
    pose proof (create_pull_request_runs self event w) as H;
    rewrite Hrun in H; cbn in H; clear Hrun;
    destruct H; unfold_log; cbn in *
  end.

(** ** The pull request orchestrator *)

(** C1. When the planning stage returns a context without the key
    ['pull_request_description'], [create_pull_request] returns normally
    (it does not raise), [write_commit] is never entered and
    [commit_service.commit] is never called: the run consists of the
    branch creation and the planning call only. *)
Theorem no_description_no_commit self event w o l w' c :
  create_pull_request type_repr self event w = Run o l w' →
  planning_reply l = Some (Returned_context c) →
  c !! "pull_request_description" = None →
  o = Return tt ∧ write_commit_entries l = [] ∧ commit_calls l = [] ∧
  l = planning_log self event c.
Proof.
  intros Hrun Hplan Hkey.
  create_pull_request_cases Hrun; simplify_eq; done.
Qed.


(** C7. When the planning stage returns a context whose
    ['pull_request_description'] is not a [PullRequestDescription],
    [create_pull_request] raises a [TypeError] whose message names the
    type of the value found and [PullRequestDescription]; nothing follows
    the planning call: no description is published, [write_commit] is not
    entered and nothing is committed. *)
Theorem wrong_description_type_raises self event w o l w' c v :
  create_pull_request type_repr self event w = Run o l w' →
  planning_reply l = Some (Returned_context c) →
  c !! "pull_request_description" = Some v →
  as_PullRequestDescription v = None →
  o = Raise (TypeError ("Actions returned a pull request description of type "
                        +:+ type_repr v
                        +:+ " instead of PullRequestDescription")) ∧
  l = planning_log self event c ∧
  set_pr_description_calls l = [] ∧ write_commit_entries l = [] ∧
  commit_calls l = [].
Proof.
  intros Hrun Hplan Hkey Htype.
  create_pull_request_cases Hrun; simplify_eq; done.
Qed.

(** C10. [create_pull_request] calls [overwrite_new_branch] exactly once,
    as the first thing it does, hence before the planning call; whenever
    anything follows (in particular a planning reply, as in the silent
    abort and in the wrong-type error) the branch call has returned, so
    the branch has been created or overwritten.  The effect lasts: the
    reply in the log is what the commit service answered to
    [overwrite_new_branch] in the world the run started in, everything
    that follows was asked in the world that call left, and the world
    the run ends in is the one reached from there. *)
Theorem branch_created_first self event w :
  ∃ r l',
    log (create_pull_request type_repr self event w)
    = Call Overwrite_new_branch r :: l' ∧
    branch_calls (log (create_pull_request type_repr self event w)) = [r] ∧
    (l' ≠ [] → r = Returned) ∧
    r = reply_of unit_reply (overwrite_new_branch w).1 ∧
    replays l' (overwrite_new_branch w).2
      (final (create_pull_request type_repr self event w)).
Proof.
  pose proof (create_pull_request_faithful self event w) as Hf.
  destruct (create_pull_request type_repr self event w) as [o l w'] eqn:Hrun.
  assert (∃ r l', l = Call Overwrite_new_branch r :: l' ∧
                  branch_calls l = [r] ∧ (l' ≠ [] → r = Returned))
    as (r & l' & -> & Hb & Hr).
  { create_pull_request_cases Hrun;
      try (by eexists _, _; split; [reflexivity|]).
    - eexists _, _; split; [reflexivity|].
      pose proof (commits_no_branch _ _ _ _ _ H0) as Hl.
      unfold branch_calls in *. cbn. by rewrite Hl.
    - eexists _, _; split; [reflexivity|].
      pose proof (commits_no_branch _ _ _ _ _ H0) as Hl.
      unfold branch_calls in *. cbn. by rewrite Hl. }
  exists r, l'. destruct Hf as [Hanswer Hrest].
  by repeat split.
Qed.

(** C3. When [create_pull_request] returns normally on a plan with the
    commits [commits p], [write_commit] is entered once for each commit of
    the plan, in the order of the plan (so [length (commits p)] times);
    each invocation makes one call of [run_actions_iteratively], and the
    context of that call has the commit of the invocation under
    ['current_commit'] and the empty list under ['action_history'].  The
    calls of the log are what the collaborators were asked: the log
    replays, so each reply of code generation is what the action service
    answered on the context with the two keys set. *)
Theorem one_round_per_commit self event w o l w' c p :
  create_pull_request type_repr self event w = Run o l w' →
  planning_reply l = Some (Returned_context c) →
  c !! "pull_request_description" = Some (VPullRequestDescription p) →
  o = Return tt →
  write_commit_entries l = commits p ∧
  length (write_commit_entries l) = length (commits p) ∧
  omap fst (action_runs None l) = commits p ∧
  Forall round_reset (action_runs None l) ∧
  replays l w w'.
Proof.
  intros Hrun Hplan Hkey Hret.
  pose proof (create_pull_request_faithful self event w) as Hf.
  rewrite Hrun in Hf. change (replays l w w') in Hf.
  assert (write_commit_entries l = commits p ∧
          length (write_commit_entries l) = length (commits p) ∧
          omap fst (action_runs None l) = commits p ∧
          Forall round_reset (action_runs None l)) as (H1 & H2 & H3 & H4);
    [|done].
  clear Hf.
  create_pull_request_cases Hrun; simplify_eq.
  destruct (commits_all_entered _ _ _ _ _ H0) as [Hentries Hruns].
  unfold write_commit_entries in Hentries.
  rewrite Hentries, Hruns. repeat split.
  constructor; [done|].
  eapply commits_action_runs; [|done].
  intros cp context. apply codegen_context_reset.
Qed.

(** C8. The planning call of [run_actions_iteratively], the one made
    outside of [write_commit], has [max_iterations=1]; every call made in
    [write_commit] has [max_iterations] equal to the agent's
    [max_codegen_iterations] and [include_finished=True];
    [max_codegen_iterations] is the number the constructor is given, and
    5 when it is given none, so an agent configured with [m] runs code
    generation with [max_iterations=m].  The calls of the log are what
    the action service was asked: the log replays. *)
Theorem iteration_bounds self event w :
  Forall (iterations_bounded self)
    (action_runs None (log (create_pull_request type_repr self event w))) ∧
  (∀ cp context headings w,
     Forall (iterations_bounded self)
       (action_runs None (log (write_commit self cp context headings w)))) ∧
  (∀ planning codegen,
     max_codegen_iterations (PlanAndCode_init planning codegen None) = 5) ∧
  (∀ planning codegen m,
     max_codegen_iterations (PlanAndCode_init planning codegen (Some m)) = m) ∧
  (∀ planning codegen m event w,
     Forall (λ x, match x with
                  | (Some _, Run_actions_iteratively _ _ _ m' f) =>
                    m' = m ∧ f = Some true
                  | (None, Run_actions_iteratively _ _ _ m' _) => m' = 1
                  | _ => True
                  end)
       (action_runs None
          (log (create_pull_request type_repr
                  (PlanAndCode_init planning codegen (Some m)) event w)))) ∧
  replays (log (create_pull_request type_repr self event w)) w
    (final (create_pull_request type_repr self event w)) ∧
  (∀ cp context headings w,
     replays (log (write_commit self cp context headings w)) w
       (final (write_commit self cp context headings w))).
Proof.
  assert (∀ self event w,
            Forall (iterations_bounded self)
              (action_runs None
                 (log (create_pull_request type_repr self event w))))
    as Hbounded.
  { intros self0 event0 w0.
    destruct (create_pull_request type_repr self0 event0 w0)
      as [o l w'] eqn:Hrun.
    create_pull_request_cases Hrun; repeat constructor;
      by eapply commits_action_runs. }
  split; [apply Hbounded|].
  split.
  { intros cp context headings w0.
    destruct (write_commit_action_runs _ _ _ _ _ _ None
                (write_commit_runs self cp context headings w0)) as [->| ->];
      by repeat constructor. }
  split; [done|]. split; [done|].
  split.
  { intros planning codegen m event0 w0.
    eapply Forall_impl; [apply Hbounded|].
    intros [inside q] Hx. destruct inside, q; try done; cbn in Hx.
    + by destruct Hx as (_ & -> & ->).
    + by destruct Hx as (_ & ->). }
  split; [apply create_pull_request_faithful|].
  intros cp context headings w0. apply write_commit_faithful.
Qed.

(** ** The commit writer *)

(** Case analysis on a run of [write_commit] given as an equation. *)
Ltac write_commit_run_cases Hrun :=
  match type of Hrun with
  | write_commit ?self ?cp ?context ?headings ?w = _ =>
    let H := fresh "Hcase" in
    pose proof (write_commit_runs self cp context headings w) as H;
    rewrite Hrun in H; cbn in H; clear Hrun;
    write_commit_cases H
  end.

Lemma success_is_no_warning (m m' : string) :
  "✅ Committed " +:+ m ≠ "⚠️ Empty commit " +:+ m'.
Proof. cbn. discriminate. Qed.

(** The round with an empty diff, as the log shows it. *)
Lemma empty_diff_round self cp context headings w o l w' d :
  write_commit self cp context headings w = Run o l w' →
  diff_replies l = [d] →
  truthy d = false →
  publish_raised l = false →
  commit_calls l = [(commit_message cp, true)] ∧
  reports l = ["⚠️ Empty commit " +:+ commit_message cp] ∧
  (∀ m, "✅ Committed " +:+ m ∉ reports l) ∧
  code_blocks l = [] ∧
  ∃ l1 r,
    l = l1 ++ [Call (End_section ("⚠️ Empty commit " +:+ commit_message cp))
                 Returned;
               Call (Commit (commit_message cp) true) r] ∧
    (r = Returned → ∃ c, o = Return c) ∧
    (∀ e, r = Raised e → o = Raise e).
Proof.
  intros Hrun Hdiff Hempty Hpub.
  write_commit_run_cases Hrun; simplify_eq; try congruence.
  - repeat split;
      [|eexists [_; _; _; _], _; repeat split; intros; by simplify_eq].
    intros m [Hm|Hm]%elem_of_cons; [|by apply elem_of_nil in Hm].
    by apply success_is_no_warning in Hm.
  - repeat split;
      [|eexists [_; _; _; _], _; repeat split; intros;
        first [by simplify_eq|by eexists] ].
    intros m [Hm|Hm]%elem_of_cons; [|by apply elem_of_nil in Hm].
    by apply success_is_no_warning in Hm.
Qed.

(** C4. In a run of [write_commit] in which [get_diff] returns an empty
    diff ([None] or the empty string) and the publish service does not
    raise, [commit] is called, once, with the commit message of the plan
    entry and [push=True], after the report; the one report on the commit
    is ['⚠️ Empty commit <message>'], which is no success message, and no
    code block is published.  The commit is made for real: the reply of
    the log is what the commit service answered to
    [commit(message, push=True)] in the world reached after the report,
    the world the commit service left is the world [write_commit] ends
    in, and [write_commit] returns when the commit service returned (and
    raises its exception when it raised). *)
Theorem empty_diff_still_committed self cp context headings w o l w' d :
  write_commit self cp context headings w = Run o l w' →
  diff_replies l = [d] →
  truthy d = false →
  publish_raised l = false →
  commit_calls l = [(commit_message cp, true)] ∧
  reports l = ["⚠️ Empty commit " +:+ commit_message cp] ∧
  (∀ m, "✅ Committed " +:+ m ∉ reports l) ∧
  code_blocks l = [] ∧
  ∃ l1 r w3,
    l = l1 ++ [Call (End_section ("⚠️ Empty commit " +:+ commit_message cp))
                 Returned;
               Call (Commit (commit_message cp) true) r] ∧
    replays
      (l1 ++ [Call (End_section ("⚠️ Empty commit " +:+ commit_message cp))
                Returned]) w w3 ∧
    r = reply_of unit_reply (commit (commit_message cp) true w3).1 ∧
    w' = (commit (commit_message cp) true w3).2 ∧
    (r = Returned → ∃ c, o = Return c) ∧
    (∀ e, r = Raised e → o = Raise e).
Proof.
  intros Hrun Hdiff Hempty Hpub.
  pose proof (write_commit_faithful self cp context headings w) as Hf.
  rewrite Hrun in Hf. change (replays l w w') in Hf.
  destruct (empty_diff_round _ _ _ _ _ _ _ _ _ Hrun Hdiff Hempty Hpub)
    as (Hc & Hr & Hs & Hb & l1 & r & -> & Hret & Hraise).
  repeat split; try done.
  rewrite cons_middle, (assoc_L (++)) in Hf.
  apply replays_app_inv in Hf as (w3 & H1 & [Hanswer ->]).
  exists l1, r, w3. by repeat split.
Qed.


(** ** The scenario of two commits *)


(** ** Event dispatch *)

Lemma handle_issue_label self event w :
  handle_event type_repr event_type_repr self (issue_label event) w
  = create_pull_request type_repr self event w.
Proof. reflexivity. Qed.

(** C6. For an event that is not an issue-labeled event, [handle_event]
    raises [NotImplementedError] at once: the log of the run is empty (no
    call of [run_actions_iteratively], no branch, no commit) and the world
    is as it was. *)
Theorem unsupported_event_raises self (e : OtherEvent) w :
  handle_event type_repr event_type_repr self (other_event e) w
  = Run (Raise (NotImplementedError
                  ("Event type " +:+ event_type_repr e +:+ " not supported")))
      [] w.
Proof. reflexivity. Qed.

(** ** Failures of the collaborators *)

(** Membership of a raised call in a log that is spelled out. *)
Ltac raised_in H :=
  repeat (apply elem_of_cons in H as [H|H]; [try discriminate|]);
  try (by apply elem_of_nil in H).

Lemma write_commit_failure self cp context headings o l (q : @call Issue) e :
  write_commit_run self cp context headings o l →
  Call q (Raised e) ∈ l →
  o = Raise e ∧ last l = Some (Call q (Raised e)).
Proof.
  intros Hrun Hin. write_commit_cases Hrun; raised_in Hin; by simplify_eq.
Qed.

Lemma commits_failure self cps context o l (q : @call Issue) e :
  commits_run self cps context o l →
  Call q (Raised e) ∈ l →
  o = Raise e ∧ last l = Some (Call q (Raised e)).
Proof.
  induction 1 as [|????? Hcp|??????? Hcp _ IH]; intros Hin.
  - by apply elem_of_nil in Hin.
  - by eapply write_commit_failure.
  - apply elem_of_app in Hin as [Hin|Hin].
    + by destruct (write_commit_failure _ _ _ _ _ _ _ _ Hcp Hin).
    + destruct (IH Hin) as [-> Hlast]. split; [done|].
      rewrite last_app, Hlast. done.
Qed.

(** X1. A collaborator call that raises ends [write_commit]: the
    exception is the outcome of the run, unchanged, and the call is the
    last entry of the log. *)
Theorem commit_writer_failure_is_final self cp context headings w o l w'
    (q : @call Issue) e :
  write_commit self cp context headings w = Run o l w' →
  Call q (Raised e) ∈ l →
  o = Raise e ∧ last l = Some (Call q (Raised e)).
Proof.
  intros Hrun Hin.
  pose proof (write_commit_runs self cp context headings w) as Hcase.
  rewrite Hrun in Hcase. by eapply write_commit_failure.
Qed.

(** X2. A collaborator call that raises ends [create_pull_request]: the
    exception is the outcome of the run, unchanged, and the call is the
    last entry of the log (nothing is retried, nothing is called
    afterwards). *)
Theorem failure_is_final self event w o l w' (q : @call Issue) e :
  create_pull_request type_repr self event w = Run o l w' →
  Call q (Raised e) ∈ l →
  o = Raise e ∧ last l = Some (Call q (Raised e)).
Proof.
  intros Hrun Hin.
  create_pull_request_cases Hrun; raised_in Hin; try by simplify_eq.
  - destruct (commits_failure _ _ _ _ _ _ _ H0 Hin) as [[= ->] Hlast].
    split; [done|]. by rewrite last_cons, Hlast.
  - by destruct (commits_failure _ _ _ _ _ _ _ H0 Hin).
Qed.

Lemma write_commit_raise_cause self cp context headings e l :
  write_commit_run self cp context headings (Raise e) l →
  ∃ q : @call Issue, last l = Some (Call q (Raised e)).
Proof.
  intros Hrun. inversion Hrun; subst; unfold_log;
    repeat match goal with
           | |- context [if truthy ?d then _ else _] => destruct (truthy d)
           end; by eexists.
Qed.

Lemma commits_raise_cause self cps context o l e :
  commits_run self cps context o l → o = Raise e →
  ∃ q : @call Issue, last l = Some (Call q (Raised e)).
Proof.
  induction 1 as [|????? Hcp|??????? Hcp _ IH]; intros Ho; simplify_eq.
  - by eapply write_commit_raise_cause.
  - destruct (IH eq_refl) as [q Hq]. exists q. by rewrite last_app, Hq.
Qed.

(** X3. Why a run of [create_pull_request] raises: its last call raised
    that exception, or the planning stage left a value that is no
    [PullRequestDescription], no call raised and the exception is the
    [TypeError] on that value.  The agent raises nothing else of its
    own. *)
Theorem raise_has_cause self event w o l w' e :
  create_pull_request type_repr self event w = Run o l w' →
  o = Raise e →
  (∃ q : @call Issue, last l = Some (Call q (Raised e))) ∨
  (∃ c v,
     planning_reply l = Some (Returned_context c) ∧
     c !! "pull_request_description" = Some v ∧
     as_PullRequestDescription v = None ∧
     e = wrong_type type_repr v ∧
     ∀ (q : @call Issue) e0, Call q (Raised e0) ∉ l).
Proof.
  intros Hrun Ho.
  create_pull_request_cases Hrun; simplify_eq; try (by left; eexists).
  - right. exists c, v. repeat split; try done.
    intros q e0 Hin. raised_in Hin.
  - left. destruct (commits_raise_cause _ _ _ _ _ _ H0 eq_refl) as [q Hq].
    exists q. by rewrite last_cons, Hq.
Qed.

(** ** The rounds of the commit writer *)

Lemma filter_truthy_singleton d :
  filter (λ d : option string, truthy d) [d] = if truthy d then [d] else [].
Proof. by destruct d as [[|]|]. Qed.

(** What a round that returns leaves in the log. *)
Lemma round_returns self cp context headings c l :
  write_commit_run self cp context headings (Return c) l →
  ∃ d,
    diff_replies l = [d] ∧ reports l = [report_text cp d] ∧
    commit_calls l = [pushed cp] ∧ section_starts l = [section_text cp] ∧
    write_commit_entries l = [cp] ∧
    action_exchanges l = [(codegen_context cp context, Returned_context c)] ∧
    last l = Some (Call (Commit (commit_message cp) true) Returned).
Proof.
  intros Hrun. inversion Hrun; subst. exists d.
  unfold report_text, pushed, section_text. unfold_log.
  by destruct (truthy d).
Qed.

(** X4. When [write_commit] returns, it returns the context that code
    generation returned, as it is; code generation was given the
    caller's context with the two keys ['current_commit'] and
    ['action_history'] set and every other key as the caller had it; and
    the last thing done is the call of [commit] with [push=True], which
    returned. *)
Theorem commit_writer_returns_codegen_context self cp context headings w
    o l w' c :
  write_commit self cp context headings w = Run o l w' →
  o = Return c →
  action_exchanges l = [(codegen_context cp context, Returned_context c)] ∧
  (∀ k, k ≠ "current_commit" → k ≠ "action_history" →
        codegen_context cp context !! k = context !! k) ∧
  last l = Some (Call (Commit (commit_message cp) true) Returned).
Proof.
  intros Hrun ->.
  pose proof (write_commit_runs self cp context headings w) as Hcase.
  rewrite Hrun in Hcase. cbn in Hcase.
  destruct (round_returns _ _ _ _ _ _ Hcase) as (d & _ & _ & _ & _ & _ & Hx & Hlast).
  repeat split; [done| |done].
  intros k Hk1 Hk2. unfold codegen_context. by rewrite !lookup_insert_ne.
Qed.

(** What any round leaves in the log. *)
Lemma round_any self cp context headings o l :
  write_commit_run self cp context headings o l →
  write_commit_entries l = [cp] ∧
  section_starts l = [section_text cp] ∧
  (commit_calls l = [] ∨ commit_calls l = [pushed cp]) ∧
  (length (reports l) ≤ 1)%nat ∧
  (length (action_exchanges l) ≤ 1)%nat ∧
  (length l ≤ 7)%nat ∧
  code_blocks l
  = (λ d, ("Diff", d, "diff")) <$> filter (λ d, truthy d) (diff_replies l) ∧
  threaded context [cp] (action_exchanges l).
Proof.
  intros Hrun. unfold pushed, section_text.
  write_commit_cases Hrun; rewrite ?filter_truthy_singleton;
    repeat match goal with H : truthy _ = _ |- _ => rewrite H end;
    cbn; repeat split; auto with lia.
Qed.

(** The observations of a log that is put together from two. *)
Lemma commit_calls_app (l1 l2 : list (@entry Issue)) :
  commit_calls (l1 ++ l2) = commit_calls l1 ++ commit_calls l2.
Proof. apply omap_app. Qed.

Lemma entries_app (l1 l2 : list (@entry Issue)) :
  write_commit_entries (l1 ++ l2)
  = write_commit_entries l1 ++ write_commit_entries l2.
Proof. apply omap_app. Qed.

Lemma section_starts_app (l1 l2 : list (@entry Issue)) :
  section_starts (l1 ++ l2) = section_starts l1 ++ section_starts l2.
Proof. apply omap_app. Qed.

Lemma reports_app (l1 l2 : list (@entry Issue)) :
  reports (l1 ++ l2) = reports l1 ++ reports l2.
Proof. apply omap_app. Qed.

Lemma action_exchanges_app (l1 l2 : list (@entry Issue)) :
  action_exchanges (l1 ++ l2) = action_exchanges l1 ++ action_exchanges l2.
Proof. apply omap_app. Qed.

Lemma code_blocks_app (l1 l2 : list (@entry Issue)) :
  code_blocks (l1 ++ l2) = code_blocks l1 ++ code_blocks l2.
Proof. apply omap_app. Qed.

Lemma diff_replies_app (l1 l2 : list (@entry Issue)) :
  diff_replies (l1 ++ l2) = diff_replies l1 ++ diff_replies l2.
Proof. apply omap_app. Qed.


(** The loop over the commits, also when it is cut short. *)
Lemma commits_progress self cps context o l :
  commits_run self cps context o l →
  commit_calls l `prefix_of` (pushed <$> cps) ∧
  (length (commit_calls l) ≤ length (write_commit_entries l)
   ≤ S (length (commit_calls l)))%nat ∧
  section_starts l = section_text <$> write_commit_entries l ∧
  (length (reports l) ≤ length (section_starts l))%nat ∧
  (length (action_exchanges l) ≤ length (write_commit_entries l))%nat ∧
  (length l ≤ 7 * length (write_commit_entries l))%nat ∧
  code_blocks l
  = (λ d, ("Diff", d, "diff")) <$> filter (λ d, truthy d) (diff_replies l) ∧
  threaded context cps (action_exchanges l).
Proof.
  induction 1 as [|????? Hcp|??????? Hcp _ IH].
  - cbn. repeat split; auto with lia.
  - destruct (round_any _ _ _ _ _ _ Hcp)
      as (He & Hs & Hc & Hr & Hx & Hl & Hb & Ht).
    rewrite He, Hs. cbn.
    assert (threaded context (cp :: cps) (action_exchanges l)) as Ht'.
    { destruct (action_exchanges l) as [|[given r] xs]; [done|].
      destruct xs; [|cbn in Hx; lia].
      destruct Ht as [Hg Ht]. split; [done|]. destruct r; by cbn. }
    destruct Hc as [-> | ->]; cbn; repeat split; try done; try lia.
    + apply prefix_nil.
    + apply prefix_cons, prefix_nil.
  - destruct (round_returns _ _ _ _ _ _ Hcp)
      as (d & Hd & Hr & Hc & Hs & He & Hx & _).
    destruct (round_any _ _ _ _ _ _ Hcp) as (_ & _ & _ & _ & _ & Hl & Hb & _).
    destruct IH as (IHc & IHn & IHs & IHr & IHx & IHl & IHb & IHt).
    rewrite commit_calls_app, entries_app, section_starts_app, reports_app,
      action_exchanges_app, code_blocks_app, diff_replies_app.
    rewrite !length_app, filter_app, !fmap_app.
    rewrite Hc, He, Hs, Hr, Hx, Hb, IHb, IHs, Hd. cbn.
    repeat split; try done; try lia; try (rewrite <- IHs; lia).
    by apply prefix_cons.
Qed.

Lemma round_reports self cp cps context headings o l :
  write_commit_run self cp context headings o l →
  reports l `prefix_of` zip_with report_text (cp :: cps) (diff_replies l).
Proof.
  intros Hrun. unfold report_text.
  write_commit_cases Hrun;
    repeat match goal with H : truthy _ = _ |- _ => rewrite H end;
    rewrite ?zip_with_nil_r; repeat apply prefix_cons; apply prefix_nil.
Qed.

Lemma commits_reports self cps context o l :
  commits_run self cps context o l →
  reports l `prefix_of` zip_with report_text cps (diff_replies l).
Proof.
  induction 1 as [|????? Hcp|??????? Hcp _ IH].
  - done.
  - by eapply round_reports.
  - destruct (round_returns _ _ _ _ _ _ Hcp) as (d & Hd & Hr & _).
    rewrite reports_app, diff_replies_app, Hd, Hr. cbn.
    by apply prefix_cons.
Qed.

(** ** The pull request as a whole *)


(** X6. However a run of [create_pull_request] on a plan ends, what it
    did follows the plan: the invocations of [write_commit] and the calls
    of [commit] are prefixes of the plan (each call with [push=True]), so
    no commit of the plan is skipped or pushed twice; at most the last
    invocation lacks its call of [commit]; and every report made is the
    one that fits its commit and its diff. *)
Theorem progress_follows_plan self event w o l w' c p :
  create_pull_request type_repr self event w = Run o l w' →
  planning_reply l = Some (Returned_context c) →
  c !! "pull_request_description" = Some (VPullRequestDescription p) →
  write_commit_entries l `prefix_of` commits p ∧
  commit_calls l `prefix_of` (pushed <$> commits p) ∧
  (length (commit_calls l) ≤ length (write_commit_entries l)
   ≤ S (length (commit_calls l)))%nat ∧
  reports l `prefix_of` zip_with report_text (commits p) (diff_replies l).
Proof.
  intros Hrun Hplan Hkey.
  create_pull_request_cases Hrun; simplify_eq;
    try (repeat split; auto using prefix_nil with lia; done).
  - destruct (commits_progress _ _ _ _ _ H0) as (Hc & Hn & _).
    pose proof (commits_reports _ _ _ _ _ H0) as Hr.
    pose proof (commits_entered_in_order _ _ _ _ _ H0) as He.
    unfold write_commit_entries, commit_calls, reports, diff_replies in *.
    done.
  - destruct (commits_progress _ _ _ _ _ H0) as (Hc & Hn & _).
    pose proof (commits_reports _ _ _ _ _ H0) as Hr.
    pose proof (commits_entered_in_order _ _ _ _ _ H0) as He.
    unfold write_commit_entries, commit_calls, reports, diff_replies in *.
    done.
Qed.

(** X7. The context is threaded through the stages: planning is given
    the context that holds the issue only; code generation for the first
    commit is given what planning returned, with ['current_commit'] and
    ['action_history'] set; code generation for each further commit is
    given what the code generation before it returned, with the two keys
    set anew; and after a call of [run_actions_iteratively] that raised
    there is no further one.  The contexts of the log are the ones the
    action service was asked on: the log replays, so each reply is what
    the action service answered on the context the log shows. *)
Theorem context_is_threaded self event w o l w' c p :
  create_pull_request type_repr self event w = Run o l w' →
  planning_reply l = Some (Returned_context c) →
  c !! "pull_request_description" = Some (VPullRequestDescription p) →
  (∃ xs,
     action_exchanges l
     = ({["issue" := VIssue (issue event)]}, Returned_context c) :: xs ∧
     threaded c (commits p) xs) ∧
  replays l w w'.
Proof.
  intros Hrun Hplan Hkey.
  pose proof (create_pull_request_faithful self event w) as Hf.
  rewrite Hrun in Hf. change (replays l w w') in Hf.
  split; [clear Hf|done].
  create_pull_request_cases Hrun; simplify_eq; try (by eexists).
  - eexists; split; [done|].
    by destruct (commits_progress _ _ _ _ _ H0) as (_ & _ & _ & _ & _ & _ & _ & Ht).
  - eexists; split; [done|].
    by destruct (commits_progress _ _ _ _ _ H0) as (_ & _ & _ & _ & _ & _ & _ & Ht).
Qed.

(** X8. In every run of [create_pull_request] a code block is published
    for exactly the diffs that are not empty, in their order, each with
    the heading ['Diff'], the diff as its code and the language ['diff'];
    an empty diff is never published. *)
Theorem code_blocks_are_the_diffs self event w :
  code_blocks (log (create_pull_request type_repr self event w))
  = (λ d, ("Diff", d, "diff"))
    <$> filter (λ d, truthy d)
          (diff_replies (log (create_pull_request type_repr self event w))).
Proof.
  destruct (create_pull_request type_repr self event w) as [o l w'] eqn:Hrun.
  create_pull_request_cases Hrun; try done.
  - by destruct (commits_progress _ _ _ _ _ H0) as (_ & _ & _ & _ & _ & _ & Hb & _).
  - by destruct (commits_progress _ _ _ _ _ H0) as (_ & _ & _ & _ & _ & _ & Hb & _).
Qed.

(** X9. In every run of [create_pull_request] a section is opened for
    each invocation of [write_commit], with the text
    ['🔨 Writing commit <message>'], and no section is closed that was
    not opened; the agent calls [run_actions_iteratively] at most once
    more than it enters [write_commit], and the log has at most three
    entries besides at most seven for each invocation. *)
Theorem sections_and_bounds self event w :
  section_starts (log (create_pull_request type_repr self event w))
  = section_text
    <$> write_commit_entries (log (create_pull_request type_repr self event w)) ∧
  (length (reports (log (create_pull_request type_repr self event w)))
   ≤ length (section_starts (log (create_pull_request type_repr self event w))))%nat ∧
  (length (action_exchanges (log (create_pull_request type_repr self event w)))
   ≤ S (length (write_commit_entries
                  (log (create_pull_request type_repr self event w)))))%nat ∧
  (length (log (create_pull_request type_repr self event w))
   ≤ 3 + 7 * length (write_commit_entries
                       (log (create_pull_request type_repr self event w))))%nat.
Proof.
  destruct (create_pull_request type_repr self event w) as [o l w'] eqn:Hrun.
  create_pull_request_cases Hrun; try (repeat split; auto with lia; done).
  - destruct (commits_progress _ _ _ _ _ H0) as (_ & _ & Hs & Hr & Hx & Hl & _).
    unfold section_starts, reports, action_exchanges, write_commit_entries in *.
    repeat split; auto with lia.
  - destruct (commits_progress _ _ _ _ _ H0) as (_ & _ & Hs & Hr & Hx & Hl & _).
    unfold section_starts, reports, action_exchanges, write_commit_entries in *.
    repeat split; auto with lia.
Qed.

(** X10. On a description without commits [create_pull_request]
    publishes the description and stops: the log is the branch creation,
    the planning call and the call of [set_pr_description], and the run
    returns unless that call raised. *)
Theorem empty_plan_only_publishes self event w o l w' c p :
  create_pull_request type_repr self event w = Run o l w' →
  planning_reply l = Some (Returned_context c) →
  c !! "pull_request_description" = Some (VPullRequestDescription p) →
  commits p = [] →
  ∃ r,
    l = planning_log self event c ++ [ev_description p r] ∧
    o = match r with Raised e => Raise e | _ => Return tt end ∧
    write_commit_entries l = [] ∧ commit_calls l = [].
Proof.
  intros Hrun Hplan Hkey Hempty.
  create_pull_request_cases Hrun; simplify_eq.
  - by exists (Raised e).
  - rewrite Hempty in H0. inversion H0.
  - rewrite Hempty in H0. inversion H0; subst. by exists Returned.
Qed.

(** ** The headings of code generation *)

Lemma merged_headings (headings : gmap string string) :
  (∀ k t, headings !! k = Some t →
          (headings ∪ commit_headings) !! k = Some t) ∧
  (∀ k, headings !! k = None →
        (headings ∪ commit_headings) !! k = commit_headings !! k) ∧
  dom (headings ∪ commit_headings)
  = dom headings ∪ {["current_commit"; "action_history"]}.
Proof.
  repeat split.
  - intros k t Hk. by apply lookup_union_Some_l.
  - intros k Hk. by apply lookup_union_r.
  - unfold commit_headings.
    rewrite dom_union_L, dom_insert_L, dom_singleton_L. set_solver.
Qed.

(** X11. The headings [write_commit] gives to code generation are the
    caller's headings together with the built-in headings of the keys
    ['current_commit'] and ['action_history']; where the caller gives a
    heading for one of these two keys, the caller's heading is the one
    passed on. *)
Theorem caller_headings_take_precedence self cp context headings w :
  Forall (λ h, ∃ m : gmap string string,
            h = Some m ∧
            (∀ k t, headings !! k = Some t → m !! k = Some t) ∧
            (headings !! "current_commit" = None →
             m !! "current_commit"
             = Some "Commit we are currently generating") ∧
            (headings !! "action_history" = None →
             m !! "action_history"
             = Some "Actions that have been run so far") ∧
            dom m = dom headings ∪ {["current_commit"; "action_history"]})
    (action_headings (log (write_commit self cp context headings w))).
Proof.
  destruct (merged_headings headings) as (Hl & Hr & Hdom).
  assert (∃ m : gmap string string,
            Some (headings ∪ commit_headings) = Some m ∧
            (∀ k t, headings !! k = Some t → m !! k = Some t) ∧
            (headings !! "current_commit" = None →
             m !! "current_commit"
             = Some "Commit we are currently generating") ∧
            (headings !! "action_history" = None →
             m !! "action_history"
             = Some "Actions that have been run so far") ∧
            dom m = dom headings ∪ {["current_commit"; "action_history"]})
    as Hm.
  { eexists; repeat split; try done; intros Hk; by rewrite (Hr _ Hk). }
  pose proof (write_commit_runs self cp context headings w) as Hrun.
  destruct (write_commit self cp context headings w) as [o l w']. cbn in *.
  write_commit_cases Hrun; repeat constructor; exact Hm.
Qed.

End Facts.

(** ** The theorems at work in the scripted world *)

(** The run of the two-commit scenario returns; it makes the planning call
    and one call of code generation for each commit. *)
Example foo_bar_run_returns :
  result foo_bar_run = Return tt ∧
  length (log foo_bar_run) = 16%nat ∧
  fst <$> action_runs None (log foo_bar_run)
  = [None; Some add_foo; Some fix_bar].
Proof. repeat split; vm_compute; reflexivity. Qed.

Lemma no_description_no_commit_witness :
  result no_plan_run = Return tt ∧
  write_commit_entries (log no_plan_run) = [] ∧
  commit_calls (log no_plan_run) = [] ∧
  log no_plan_run = planning_log default_agent issue_7 issue_context.
Proof.
  apply (no_description_no_commit scripted_type_repr default_agent issue_7
           no_plan_world (result no_plan_run) (log no_plan_run)
           (final no_plan_run) issue_context);
    vm_compute; reflexivity.
Defined.


Lemma one_round_per_commit_witness :
  write_commit_entries (log foo_bar_run) = [add_foo; fix_bar] ∧
  length (write_commit_entries (log foo_bar_run)) = 2%nat ∧
  omap fst (action_runs None (log foo_bar_run)) = [add_foo; fix_bar] ∧
  Forall round_reset (action_runs None (log foo_bar_run)) ∧
  replays (log foo_bar_run) foo_bar_world (final foo_bar_run).
Proof.
  apply (one_round_per_commit scripted_type_repr default_agent issue_7
           foo_bar_world (result foo_bar_run) (log foo_bar_run)
           (final foo_bar_run)
           (<["pull_request_description" :=
                VPullRequestDescription foo_bar_plan]> issue_context)
           foo_bar_plan);
    vm_compute; reflexivity.
Defined.

(** In the scripted world code generation returns the context it is
    given, so the replies show what the action service received: the
    context of each round, with the commit of the round and an empty
    history. *)
Example foo_bar_rounds_received :
  action_exchanges (log foo_bar_run)
  = [(issue_context, Returned_context foo_bar_context);
     (codegen_context add_foo foo_bar_context,
      Returned_context (codegen_context add_foo foo_bar_context));
     (codegen_context fix_bar (codegen_context add_foo foo_bar_context),
      Returned_context
        (codegen_context fix_bar (codegen_context add_foo foo_bar_context)))] ∧
  codegen_context fix_bar (codegen_context add_foo foo_bar_context)
    !! "current_commit" = Some (VCommitPlan fix_bar) ∧
  codegen_context fix_bar (codegen_context add_foo foo_bar_context)
    !! "action_history" = Some (VList []).
Proof. repeat split; vm_compute; reflexivity. Qed.

(** An agent configured with three iterations runs code generation with
    three. *)
Example three_agent_iterations :
  max_codegen_iterations three_agent = 3 ∧
  omap (λ x, match x with
             | (_, Run_actions_iteratively _ _ _ m _) => Some m
             | _ => None
             end)
    (action_runs None
       (log (create_pull_request scripted_type_repr three_agent issue_7
               foo_bar_world)))
  = [1; 3; 3].
Proof. repeat split; vm_compute; reflexivity. Qed.

(** In the repository the branch is there, and stays, also when the run
    stops without a plan or on a plan of the wrong type; after the
    two-commit scenario both commits are pushed on it. *)
Example branch_lasts :
  branch_created (final (repo_run no_plan_world)) = true ∧
  result (repo_run no_plan_world) = Return tt ∧
  branch_created (final (repo_run wrong_plan_world)) = true ∧
  pushed_messages (final (repo_run wrong_plan_world)) = [] ∧
  branch_created (final (repo_run foo_bar_world)) = true ∧
  pushed_messages (final (repo_run foo_bar_world))
  = ["Add foo.py"; "Fix bar.py"].
Proof. repeat split; vm_compute; reflexivity. Qed.

Lemma empty_diff_still_committed_witness :
  (commit_calls (log repo_fix_bar_run) = [("Fix bar.py", true)] ∧
   reports (log repo_fix_bar_run) = ["⚠️ Empty commit Fix bar.py"] ∧
   (∀ m, "✅ Committed " +:+ m ∉ reports (log repo_fix_bar_run)) ∧
   code_blocks (log repo_fix_bar_run) = [] ∧
   ∃ l1 r w3,
     log repo_fix_bar_run
     = l1 ++ [Call (End_section "⚠️ Empty commit Fix bar.py") Returned;
              Call (Commit "Fix bar.py" true) r] ∧
     replays
       (l1 ++ [Call (End_section "⚠️ Empty commit Fix bar.py") Returned])
       (fresh_branch empty_diff_world) w3 ∧
     r = reply_of unit_reply (commit "Fix bar.py" true w3).1 ∧
     final repo_fix_bar_run = (commit "Fix bar.py" true w3).2 ∧
     (r = Returned → ∃ c, result repo_fix_bar_run = Return c) ∧
     (∀ e, r = Raised e → result repo_fix_bar_run = Raise e)) ∧
  pushed_messages (final repo_fix_bar_run) = ["Fix bar.py"] ∧
  result repo_fix_bar_run = Return (codegen_context fix_bar issue_context).
Proof.
  split; [|repeat split; vm_compute; reflexivity].
  apply (empty_diff_still_committed default_agent fix_bar issue_context
           plan_headings (fresh_branch empty_diff_world)
           (result repo_fix_bar_run) (log repo_fix_bar_run)
           (final repo_fix_bar_run) None);
    vm_compute; reflexivity.
Defined.


Lemma wrong_description_type_raises_witness :
  result wrong_plan_run
  = Raise (TypeError "Actions returned a pull request description of type <class 'str'> instead of PullRequestDescription") ∧
  log wrong_plan_run
  = planning_log default_agent issue_7
      (<["pull_request_description" := VStr "later"]> issue_context) ∧
  set_pr_description_calls (log wrong_plan_run) = [] ∧
  write_commit_entries (log wrong_plan_run) = [] ∧
  commit_calls (log wrong_plan_run) = [].
Proof.
  apply (wrong_description_type_raises scripted_type_repr default_agent
           issue_7 wrong_plan_world (result wrong_plan_run)
           (log wrong_plan_run) (final wrong_plan_run)
           (<["pull_request_description" := VStr "later"]> issue_context)
           (VStr "later"));
    vm_compute; reflexivity.
Defined.



(** ** Further theorems at work: failing and empty runs *)

Lemma commit_writer_failure_is_final_witness :
  result (failing_commit_run 5) = Raise (ExternalError "service down") ∧
  last (log (failing_commit_run 5))
  = Some (Call (Commit "Add foo.py" true)
            (Raised (ExternalError "service down"))).
Proof.
  apply (commit_writer_failure_is_final default_agent add_foo issue_context
           plan_headings {| countdown := 5; script := foo_bar_world |}
           (result (failing_commit_run 5)) (log (failing_commit_run 5))
           (final (failing_commit_run 5))).
  - vm_compute; reflexivity.
  - apply (list_elem_of_lookup_2 _ 6%nat). vm_compute; reflexivity.
Defined.

Lemma failure_is_final_witness :
  result (failing_run 8) = Raise (ExternalError "service down") ∧
  last (log (failing_run 8))
  = Some (Call (Commit "Add foo.py" true)
            (Raised (ExternalError "service down"))).
Proof.
  apply (failure_is_final scripted_type_repr default_agent issue_7
           {| countdown := 8; script := foo_bar_world |}
           (result (failing_run 8)) (log (failing_run 8))
           (final (failing_run 8))).
  - vm_compute; reflexivity.
  - apply (list_elem_of_lookup_2 _ 9%nat). vm_compute; reflexivity.
Defined.

Lemma raise_has_cause_witness :
  (∃ q : @call nat,
     last (log (failing_run 8))
     = Some (Call q (Raised (ExternalError "service down")))) ∨
  (∃ c v,
     planning_reply (log (failing_run 8)) = Some (Returned_context c) ∧
     c !! "pull_request_description" = Some v ∧
     as_PullRequestDescription v = None ∧
     ExternalError "service down" = wrong_type scripted_type_repr v ∧
     ∀ (q : @call nat) e0, Call q (Raised e0) ∉ log (failing_run 8)).
Proof.
  apply (raise_has_cause scripted_type_repr default_agent issue_7
           {| countdown := 8; script := foo_bar_world |}
           (result (failing_run 8)) (log (failing_run 8))
           (final (failing_run 8)));
    vm_compute; reflexivity.
Defined.

Lemma commit_writer_returns_codegen_context_witness :
  action_exchanges (log add_foo_run)
  = [(codegen_context add_foo issue_context,
      Returned_context (codegen_context add_foo issue_context))] ∧
  (∀ k, k ≠ "current_commit" → k ≠ "action_history" →
        codegen_context add_foo issue_context !! k = issue_context !! k) ∧
  last (log add_foo_run) = Some (Call (Commit "Add foo.py" true) Returned).
Proof.
  apply (commit_writer_returns_codegen_context default_agent add_foo
           issue_context plan_headings foo_bar_world (result add_foo_run)
           (log add_foo_run) (final add_foo_run));
    vm_compute; reflexivity.
Defined.


(** The run in which the second round of code generation raises: both
    commits were entered, the first was pushed, the second was not. *)
Example failing_run_progress :
  write_commit_entries (log (failing_run 10)) = [add_foo; fix_bar] ∧
  commit_calls (log (failing_run 10)) = [pushed add_foo] ∧
  reports (log (failing_run 10)) = ["✅ Committed Add foo.py"] ∧
  result (failing_run 10) = Raise (ExternalError "service down").
Proof. repeat split; vm_compute; reflexivity. Qed.

Lemma progress_follows_plan_witness :
  write_commit_entries (log (failing_run 10)) `prefix_of` [add_foo; fix_bar] ∧
  commit_calls (log (failing_run 10))
  `prefix_of` [pushed add_foo; pushed fix_bar] ∧
  (length (commit_calls (log (failing_run 10)))
   ≤ length (write_commit_entries (log (failing_run 10)))
   ≤ S (length (commit_calls (log (failing_run 10)))))%nat ∧
  reports (log (failing_run 10))
  `prefix_of` zip_with report_text [add_foo; fix_bar]
                (diff_replies (log (failing_run 10))).
Proof.
  apply (progress_follows_plan scripted_type_repr default_agent issue_7
           {| countdown := 10; script := foo_bar_world |}
           (result (failing_run 10)) (log (failing_run 10))
           (final (failing_run 10))
           (<["pull_request_description" :=
                VPullRequestDescription foo_bar_plan]> issue_context)
           foo_bar_plan);
    vm_compute; reflexivity.
Defined.

Lemma context_is_threaded_witness :
  ((∃ xs,
      action_exchanges (log foo_bar_run)
      = (issue_context, Returned_context foo_bar_context) :: xs ∧
      threaded foo_bar_context [add_foo; fix_bar] xs) ∧
   replays (log foo_bar_run) foo_bar_world (final foo_bar_run)) ∧
  action_exchanges (log foo_bar_run)
  = [(issue_context, Returned_context foo_bar_context);
     (codegen_context add_foo foo_bar_context,
      Returned_context (codegen_context add_foo foo_bar_context));
     (codegen_context fix_bar (codegen_context add_foo foo_bar_context),
      Returned_context
        (codegen_context fix_bar (codegen_context add_foo foo_bar_context)))].
Proof.
  split; [|repeat split; vm_compute; reflexivity].
  apply (context_is_threaded scripted_type_repr default_agent issue_7
           foo_bar_world (result foo_bar_run) (log foo_bar_run)
           (final foo_bar_run) foo_bar_context foo_bar_plan);
    vm_compute; reflexivity.
Defined.

Lemma empty_plan_only_publishes_witness :
  ∃ r,
    log empty_plan_run
    = planning_log default_agent issue_7
        (<["pull_request_description" :=
             VPullRequestDescription empty_plan]> issue_context)
      ++ [ev_description empty_plan r] ∧
    result empty_plan_run
    = match r with Raised e => Raise e | _ => Return tt end ∧
    write_commit_entries (log empty_plan_run) = [] ∧
    commit_calls (log empty_plan_run) = [].
Proof.
  apply (empty_plan_only_publishes scripted_type_repr default_agent issue_7
           {| planned := Some (VPullRequestDescription empty_plan);
              diffs := [] |}
           (result empty_plan_run) (log empty_plan_run) (final empty_plan_run)
           (<["pull_request_description" :=
                VPullRequestDescription empty_plan]> issue_context)
           empty_plan);
    vm_compute; reflexivity.
Defined.
